(** * A shallow embedding of the library catalogue of [main.py]

    The program keeps a list of [Book] objects in memory and mirrors it in
    the JSON file [library.json].  The development below follows the source
    class by class: the Python built-ins the program calls ([Py]), the
    record model ([Book]), the catalogue store ([Library]), the menu
    branch that guards [add_book] ([Shell]), the store when [save_data]
    raises ([Fallible]) and the menu loop ([Main]).  Theorems come after
    the definitions. *)

From Stdlib Require Import ZArith List Ascii String.
From stdpp Require Import base option list list_numbers sorting gmap strings pretty.

Local Open Scope Z_scope.

(** ** Python values and built-ins *)

Module Py.

(** A [str] is its sequence of Unicode code points. *)
Definition str : Type := list N.

(** The [str] of an ASCII literal of the source. *)
Fixpoint lit (s : string) : str :=
  match s with
  | EmptyString => []
  | String c s' => N_of_ascii c :: lit s'
  end.

(** [str(n)] for an [int]: the decimal numeral, with a minus sign. *)
Definition str_of_int (n : Z) : str := lit (pretty n).

(** The values of a [dict[str, str | int]]. *)
Inductive value : Type :=
| VInt (n : Z)
| VStr (s : str).

#[global] Instance value_eq_dec : EqDecision value.
Proof. solve_decision. Defined.

(** A JSON object read from or written to the file. *)
Abbreviation dict := (gmap str value).

(** How [load_data] can stop.  [FileNotFoundError] and [KeyError] are
    Python's.  [IllTyped] marks a value that is not of the type
    [Book.__init__] annotates for it: Python would store it as it is,
    the typed record [Book.t] cannot, so files holding such values are
    outside the model. *)
Inductive exn : Type :=
| FileNotFoundError
| KeyError (key : str)
| IllTyped (key : str).

Inductive result (A : Type) : Type :=
| Ok (a : A)
| Raise (e : exn).
Arguments Ok {A} a.
Arguments Raise {A} e.

#[global] Instance result_ret : MRet result := λ A a, Ok a.
#[global] Instance result_bind : MBind result := λ A B k r,
  match r with
  | Ok a => k a
  | Raise e => Raise e
  end.

(** [item[key]] for an [int] and for a [str] field. *)
Definition getitem_int (item : dict) (key : str) : result Z :=
  match item !! key with
  | Some (VInt n) => Ok n
  | Some (VStr _) => Raise (IllTyped key)
  | None => Raise (KeyError key)
  end.

Definition getitem_str (item : dict) (key : str) : result str :=
  match item !! key with
  | Some (VStr s) => Ok s
  | Some (VInt _) => Raise (IllTyped key)
  | None => Raise (KeyError key)
  end.

(** [max(xs, default=d)]. *)
Definition max_default (xs : list Z) (d : Z) : Z :=
  match xs with
  | [] => d
  | x :: xs' => foldl Z.max x xs'
  end.

(** [s.startswith(p)] and [needle in hay] on strings. *)
Fixpoint startswith (p s : str) : bool :=
  match p, s with
  | [], _ => true
  | _ :: _, [] => false
  | a :: p', b :: s' => bool_decide (a = b) && startswith p' s'
  end.

Fixpoint contains (needle hay : str) : bool :=
  startswith needle hay ||
  match hay with
  | [] => false
  | _ :: hay' => contains needle hay'
  end.

(** What [str.lower] does to an ASCII code point, and to a string that
    holds nothing else. *)
Definition is_ascii (c : N) : Prop := (c < 128)%N.

Definition lower_ascii_char (c : N) : N :=
  if (65 <=? c)%N && (c <=? 90)%N then (c + 32)%N else c.

Definition lower_ascii (s : str) : str := lower_ascii_char <$> s.

(** [str.lower] is a built-in whose Unicode tables are not part of the
    program.  The store takes it as a parameter; these are the two facts
    about it the theorems rely on. *)
Definition lower_on_ascii (lower : str → str) : Prop :=
  ∀ s, Forall is_ascii s → lower s = lower_ascii s.

Definition lower_keeps_nonempty (lower : str → str) : Prop :=
  ∀ s, lower s = [] → s = [].

(** The two alphabets of the program's texts: ASCII, and the Cyrillic
    letters U+0400 to U+045F.  On them [str.lower] works letter by
    letter: A-Z and U+0410-U+042F move up by 32, U+0400-U+040F by 80, and
    every other code point stays. *)
Definition is_plain (c : N) : Prop := (c < 128 ∨ 0x400 ≤ c ≤ 0x45F)%N.

Definition lower_plain_char (c : N) : N :=
  if (65 <=? c)%N && (c <=? 90)%N then (c + 32)%N
  else if (0x410 <=? c)%N && (c <=? 0x42F)%N then (c + 32)%N
  else if (0x400 <=? c)%N && (c <=? 0x40F)%N then (c + 80)%N
  else c.

Definition lower_plain (s : str) : str := lower_plain_char <$> s.

Definition lower_on_plain (lower : str → str) : Prop :=
  ∀ s, Forall is_plain s → lower s = lower_plain s.

(** [str.lower] on strings made of ASCII, of those Cyrillic letters and of
    the Greek letters U+0391 to U+03CB, without the five ASCII marks
    Unicode skips when it looks for a neighbouring letter (apostrophe,
    full stop, colon, circumflex, grave accent).  The Greek capitals
    U+0391 to U+03AB move up by 32, but a capital sigma U+03A3 that
    follows a letter and is followed by none becomes the final sigma
    U+03C2. *)
Definition is_letter (c : N) : bool :=
  ((65 <=? c) && (c <=? 90) || (97 <=? c) && (c <=? 122) ||
   (0x400 <=? c) && (c <=? 0x45F) ||
   (0x391 <=? c) && (c <=? 0x3CB) && negb (c =? 0x3A2))%N.

Definition lower_letter (c : N) : N :=
  if (0x391 <=? c)%N && (c <=? 0x3AB)%N && negb (c =? 0x3A2)%N then (c + 32)%N
  else lower_plain_char c.

Fixpoint lower_letters_after (after_letter : bool) (s : str) : str :=
  match s with
  | [] => []
  | c :: rest =>
      (if (c =? 0x3A3)%N
       then if after_letter &&
               negb match rest with [] => false | c' :: _ => is_letter c' end
            then 0x3C2%N else 0x3C3%N
       else lower_letter c)
      :: lower_letters_after (is_letter c) rest
  end.

Definition lower_letters (s : str) : str := lower_letters_after false s.

(** What can be written.  [s.encode("utf-8")] raises [UnicodeEncodeError]
    on a surrogate code point, U+D800 to U+DFFF; [str(n)] raises
    [ValueError] on an integer of more than 4300 digits (CPython's default
    limit).  Both are [ValueError]s. *)
Definition is_surrogate (c : N) : bool := ((0xD800 <=? c) && (c <=? 0xDFFF))%N.

Definition encodable (s : str) : bool := forallb (λ c, negb (is_surrogate c)) s.

Definition printable (n : Z) : bool := Z.abs n <? 10 ^ 4300.

End Py.

(** ** [class Book] *)

Module Book.

Record t : Type := mk {
  id : Z;
  title : Py.str;
  author : Py.str;
  year : Z;
  status : Py.str
}.

#[global] Instance eq_dec : EqDecision t.
Proof. solve_decision. Defined.

(** The two status labels, "в наличии" and "выдана". *)
Definition AVAILABLE : Py.str :=
  [0x432; 0x20; 0x43D; 0x430; 0x43B; 0x438; 0x447; 0x438; 0x438]%N.
Definition ISSUED : Py.str :=
  [0x432; 0x44B; 0x434; 0x430; 0x43D; 0x430]%N.

(** [Book(book_id, title, author, year)]: the status takes its default. *)
Definition new (book_id : Z) (title author : Py.str) (year : Z) : t :=
  mk book_id title author year AVAILABLE.

(** [book.status = status]. *)
Definition set_status (s : Py.str) (b : t) : t :=
  mk (id b) (title b) (author b) (year b) s.

(** [to_dict]. *)
Definition to_dict (b : t) : Py.dict :=
  <[Py.lit "id" := Py.VInt (id b)]>
  (<[Py.lit "title" := Py.VStr (title b)]>
  (<[Py.lit "author" := Py.VStr (author b)]>
  (<[Py.lit "year" := Py.VInt (year b)]>
  (<[Py.lit "status" := Py.VStr (status b)]> ∅)))).

End Book.

(** ** [class Library] *)

Module Library.

(** The object's [books] together with the content of [DATA_FILE]:
    [None] while the file does not exist, else the JSON array it holds. *)
Record t : Type := mk {
  books : list Book.t;
  file : option (list Py.dict)
}.

Definition with_books (bs : list Book.t) (lib : t) : t :=
  mk bs (file lib).

(** What the methods print, one constructor per [print] statement:
    - [BookAdded]: "Книга '{title}' добавлена с ID {book_id}."
    - [BookRemoved]: "Книга с ID {book_id} удалена."
    - [RemoveNotFound]: "Книга с таким ID не найдена."
    - [BooksNotFound]: "Книги не найдены."
    - [LibraryEmpty]: "Библиотека пуста."
    - [StatusUpdated]: "Статус книги ID {book_id} обновлен на '{status}'."
    - [BadStatus]: "Некорректный статус."
    - [BookNotFound]: "Книга не найдена."
    - [YearError]: "Год должен быть числом и больше нуля" (printed by [main])
    - [Printed d]: [print(book.to_dict())]. *)
Inductive line : Type :=
| BookAdded (title : Py.str) (book_id : Z)
| BookRemoved (book_id : Z)
| RemoveNotFound
| BooksNotFound
| LibraryEmpty
| StatusUpdated (book_id : Z) (status : Py.str)
| BadStatus
| BookNotFound
| YearError
| Printed (d : Py.dict).

(** One element of the comprehension of [load_data]:
    [Book(item["id"], item["title"], item["author"], item["year"])]. *)
Definition load_item (item : Py.dict) : Py.result Book.t :=
  book_id ← Py.getitem_int item (Py.lit "id");
  title ← Py.getitem_str item (Py.lit "title");
  author ← Py.getitem_str item (Py.lit "author");
  year ← Py.getitem_int item (Py.lit "year");
  Py.Ok (Book.new book_id title author year).

Fixpoint load_items (items : list Py.dict) : Py.result (list Book.t) :=
  match items with
  | [] => Py.Ok []
  | item :: rest =>
      b ← load_item item;
      bs ← load_items rest;
      Py.Ok (b :: bs)
  end.

(** [load_data]: open the file, build the books, assign [self.books].
    An exception leaves the object as it was. *)
Definition load_data (lib : t) : Py.result t :=
  match file lib with
  | None => Py.Raise Py.FileNotFoundError
  | Some items =>
      bs ← load_items items;
      Py.Ok (with_books bs lib)
  end.

(** [save_data]: overwrite the file with
    [[book.to_dict() for book in self.books]].  This is the call that
    returns: every book can be written.  What happens when one cannot is
    [Fallible.save_data] below. *)
Definition save_data (lib : t) : t :=
  mk (books lib) (Some (Book.to_dict <$> books lib)).

(** [Library()] over the file [f]. *)
Definition init (f : option (list Py.dict)) : Py.result t :=
  load_data (mk [] f).

(** [add_book]: next id, new book, append, save, print. *)
Definition add_book (title author : Py.str) (year : Z) (lib : t)
  : t * list line :=
  let book_id := Py.max_default (Book.id <$> books lib) 0 + 1 in
  let new_book := Book.new book_id title author year in
  let lib := with_books (books lib ++ [new_book]) lib in
  let lib := save_data lib in
  (lib, [BookAdded title book_id]).

(** [next((book for book in self.books if book.id == book_id), None)],
    with the position of the object found. *)
Definition next_with_id (book_id : Z) (bs : list Book.t)
  : option (nat * Book.t) :=
  list_find (λ b, Book.id b = book_id) bs.

(** [remove_book]: [self.books.remove(book)] takes out the first element
    equal to the object found, which is that object itself, at the
    position where it was found. *)
Definition remove_book (book_id : Z) (lib : t) : t * list line :=
  match next_with_id book_id (books lib) with
  | Some (i, _) =>
      let lib := with_books (delete i (books lib)) lib in
      let lib := save_data lib in
      (lib, [BookRemoved book_id])
  | None => (lib, [RemoveNotFound])
  end.

(** [display_books]. *)
Definition display_books (lib : t) : t * list line :=
  match books lib with
  | [] => (lib, [LibraryEmpty])
  | bs => (lib, (λ b, Printed (Book.to_dict b)) <$> bs)
  end.

(** [update_status]: the book is looked up first, the status is checked
    only when one was found; [book.status = status] changes the object in
    the list. *)
Definition update_status (book_id : Z) (status : Py.str) (lib : t)
  : t * list line :=
  match next_with_id book_id (books lib) with
  | Some (i, book) =>
      if bool_decide (status ∈ [Book.AVAILABLE; Book.ISSUED]) then
        let lib := with_books (<[i := Book.set_status status book]> (books lib)) lib in
        let lib := save_data lib in
        (lib, [StatusUpdated book_id status])
      else (lib, [BadStatus])
  | None => (lib, [BookNotFound])
  end.

Section Search.

(** [str.lower], and the text of the attributes a [Book] object has
    besides its five fields ([to_dict], [__init__], [__dict__], what
    it inherits from [object]): [None] for a name the object has no
    attribute of. *)
Variable lower : Py.str → Py.str.
Variable class_attr : Book.t → Py.str → option Py.str.

(** [str(getattr(book, field, ""))]. *)
Definition getattr_str (book : Book.t) (field : Py.str) : Py.str :=
  if decide (field = Py.lit "id") then Py.str_of_int (Book.id book)
  else if decide (field = Py.lit "title") then Book.title book
  else if decide (field = Py.lit "author") then Book.author book
  else if decide (field = Py.lit "year") then Py.str_of_int (Book.year book)
  else if decide (field = Py.lit "status") then Book.status book
  else default [] (class_attr book field).

(** The condition of the comprehension:
    [query.lower() in str(getattr(book, field, "")).lower()]. *)
Definition matches (query field : Py.str) (book : Book.t) : bool :=
  Py.contains (lower query) (lower (getattr_str book field)).

(** The list [results] of [search_books]. *)
Definition search_results (query field : Py.str) (bs : list Book.t)
  : list Book.t :=
  filter (λ book, matches query field book) bs.

(** [search_books]: print the books found, or that there is none. *)
Definition search_books (query field : Py.str) (lib : t) : t * list line :=
  match search_results query field (books lib) with
  | [] => (lib, [BooksNotFound])
  | results => (lib, (λ b, Printed (Book.to_dict b)) <$> results)
  end.

End Search.

End Library.

(** ** The menu of [main] *)

Module Shell.

(** Branch ["1"] of the menu.  [year] is what [int(input(...))] gave:
    [None] when it raised [ValueError].  [add_book] is the call that
    returns; [Fallible.choice_add] below has the case where it raises. *)
Definition choice_add (title author : Py.str) (year : option Z)
    (lib : Library.t) : Library.t * list Library.line :=
  match year with
  | None => (lib, [Library.YearError])
  | Some y =>
      if y <? 0 then (lib, [Library.YearError])
      else Library.add_book title author y lib
  end.

(** The store operations the menu reaches, and a session of them. *)
Inductive op : Type :=
| Add (title author : Py.str) (year : Z)
| Remove (book_id : Z)
| Search (query field : Py.str)
| ListAll
| UpdateStatus (book_id : Z) (status : Py.str).

Section Session.

Variable lower : Py.str → Py.str.
Variable class_attr : Book.t → Py.str → option Py.str.

Definition step (o : op) (lib : Library.t) : Library.t * list Library.line :=
  match o with
  | Add title author year => Library.add_book title author year lib
  | Remove book_id => Library.remove_book book_id lib
  | Search query field => Library.search_books lower class_attr query field lib
  | ListAll => Library.display_books lib
  | UpdateStatus book_id status => Library.update_status book_id status lib
  end.

(** The state after the operations [ops], and all they printed. *)
Fixpoint run (ops : list op) (lib : Library.t) : Library.t * list Library.line :=
  match ops with
  | [] => (lib, [])
  | o :: ops' =>
      let '(lib1, out1) := step o lib in
      let '(lib2, out2) := run ops' lib1 in
      (lib2, out1 ++ out2)
  end.

End Session.

End Shell.

(** ** The store when [save_data] can fail *)

Module Fallible.

(** What [library.json] holds: nothing, a JSON array of objects, or the
    beginning of one, which is what a [json.dump] that raised has left
    after [open(..., "w")] had emptied the file. *)
Inductive content : Type :=
| Absent
| Array (items : list Py.dict)
| Partial.

Record t : Type := mk {
  books : list Book.t;
  disk : content
}.

(** The store of [Library] seen here. *)
Definition of_library (lib : Library.t) : t :=
  mk (Library.books lib)
     (match Library.file lib with
      | None => Absent
      | Some items => Array items
      end).

(** [UnicodeEncodeError] and the error of the digit limit are both
    [ValueError]s, and nothing in the program tells them apart. *)
Inductive error : Type :=
| ValueError.

(** A call that has ended: the store it leaves, what it printed, and the
    exception it raised, if any. *)
Record outcome : Type := ended {
  state : t;
  printed : list Library.line;
  raised : option error
}.

(** [json.dump] gets through the record of [b]. *)
Definition writable (b : Book.t) : bool :=
  Py.printable (Book.id b) && Py.encodable (Book.title b) &&
  Py.encodable (Book.author b) && Py.printable (Book.year b) &&
  Py.encodable (Book.status b).

(** [save_data]: the file is opened for writing, which empties it, and the
    records are written one after the other; the first that cannot be
    written raises and leaves the file cut short.  (Opening the file is
    taken to succeed.) *)
Definition save_data (s : t) : outcome :=
  if forallb writable (books s)
  then ended (mk (books s) (Array (Book.to_dict <$> books s))) [] None
  else ended (mk (books s) Partial) [] (Some ValueError).

(** [print(f"...")] of a line that holds the integers [ns] and the strings
    [ss]: formatting or encoding them can raise. *)
Definition say (ns : list Z) (ss : list Py.str) (l : Library.line) (s : t) : outcome :=
  if forallb Py.printable ns && forallb Py.encodable ss
  then ended s [l] None
  else ended s [] (Some ValueError).

(** [add_book]: the book is appended before [save_data] is called, and the
    message is printed only if [save_data] returns. *)
Definition add_book (title author : Py.str) (year : Z) (s : t) : outcome :=
  let book_id := Py.max_default (Book.id <$> books s) 0 + 1 in
  let new_book := Book.new book_id title author year in
  let saved := save_data (mk (books s ++ [new_book]) (disk s)) in
  match raised saved with
  | Some _ => saved
  | None => say [book_id] [title] (Library.BookAdded title book_id) (state saved)
  end.

Definition remove_book (book_id : Z) (s : t) : outcome :=
  match Library.next_with_id book_id (books s) with
  | Some (i, _) =>
      let saved := save_data (mk (delete i (books s)) (disk s)) in
      match raised saved with
      | Some _ => saved
      | None => say [book_id] [] (Library.BookRemoved book_id) (state saved)
      end
  | None => ended s [Library.RemoveNotFound] None
  end.

Definition update_status (book_id : Z) (status : Py.str) (s : t) : outcome :=
  match Library.next_with_id book_id (books s) with
  | Some (i, book) =>
      if bool_decide (status ∈ [Book.AVAILABLE; Book.ISSUED]) then
        let saved := save_data (mk (<[i := Book.set_status status book]> (books s)) (disk s)) in
        match raised saved with
        | Some _ => saved
        | None => say [book_id] [status] (Library.StatusUpdated book_id status) (state saved)
        end
      else ended s [Library.BadStatus] None
  | None => ended s [Library.BookNotFound] None
  end.

(** Branch ["1"] of the menu: [except ValueError] also catches what
    [add_book] raises, and prints the message about the year. *)
Definition choice_add (title author : Py.str) (year : option Z) (s : t) : outcome :=
  match year with
  | None => ended s [Library.YearError] None
  | Some y =>
      if y <? 0 then ended s [Library.YearError] None
      else
        let r := add_book title author y s in
        match raised r with
        | Some ValueError => ended (state r) (printed r ++ [Library.YearError]) None
        | None => r
        end
  end.

End Fallible.

(** ** [main] *)

Module Main.

(** What [main] writes besides the lines of the store: the seven lines of
    the menu, the prompts of [input], "Id должен быть числом", "Выход" and
    "Некорректный ввод. Попробуйте снова.". *)
Inductive prompt : Type :=
| AskChoice | AskTitle | AskAuthor | AskYear | AskId | AskField | AskQuery | AskStatus.

Inductive out : Type :=
| MenuHeader
| MenuOption (n : Z)
| Prompt (p : prompt)
| Store (l : Library.line)
| IdError
| ExitMsg
| BadChoice.

Definition menu : list out :=
  [MenuHeader; MenuOption 1; MenuOption 2; MenuOption 3; MenuOption 4;
   MenuOption 5; MenuOption 6].

(** How the program ends: [break] on choice "6", or an exception nothing
    catches.  [EOFError] is [input] at the end of the input. *)
Inductive ending : Type :=
| Exited
| LoadError (e : Py.exn)
| EOFError
| ValueError
| UnboundLocalError.

(** A finished run: what was written, the store and file left behind, and
    how it ended. *)
Record t : Type := mk {
  printed : list out;
  store : Library.t;
  ending_of : ending
}.

Definition emit (o : list out) (r : t) : t :=
  mk (o ++ printed r) (store r) (ending_of r).

Definition stop (e : ending) (lib : Library.t) : t := mk [] lib e.

Section Loop.

(** [str.lower] and the attributes of a [Book] object, as for
    [search_books]; and [int(s)] on a string: [None] when it raises
    [ValueError]. *)
Variable lower : Py.str → Py.str.
Variable class_attr : Book.t → Py.str → option Py.str.
Variable int_of_str : Py.str → option Z.

(** The [while True] loop over the lines [inputs] still to be read.
    [book_id] is the local variable of that name: unbound ([None]) until
    branch "2" or "5" assigns it, and kept from one turn to the next.
    The branches call the operations of [Library], which return; a run
    in which [save_data] raises is not followed here. *)
Fixpoint loop (inputs : list Py.str) (book_id : option Z) (lib : Library.t) : t :=
  emit (menu ++ [Prompt AskChoice])
  match inputs with
  | [] => stop EOFError lib
  | choice :: rest =>
    if decide (choice = Py.lit "1") then
      emit [Prompt AskTitle]
      match rest with
      | [] => stop EOFError lib
      | title :: rest =>
        emit [Prompt AskAuthor]
        match rest with
        | [] => stop EOFError lib
        | author :: rest =>
          emit [Prompt AskYear]
          match rest with
          | [] => stop EOFError lib
          | year :: rest =>
            let '(lib', lines) := Shell.choice_add title author (int_of_str year) lib in
            emit (Store <$> lines) (loop rest book_id lib')
          end
        end
      end
    else if decide (choice = Py.lit "2") then
      emit [Prompt AskId]
      match rest with
      | [] => stop EOFError lib
      | s :: rest =>
        match int_of_str s with
        | None => stop ValueError lib
        | Some k =>
          let '(lib', lines) := Library.remove_book k lib in
          emit (Store <$> lines) (loop rest (Some k) lib')
        end
      end
    else if decide (choice = Py.lit "3") then
      emit [Prompt AskField]
      match rest with
      | [] => stop EOFError lib
      | field :: rest =>
        emit [Prompt AskQuery]
        match rest with
        | [] => stop EOFError lib
        | query :: rest =>
          let '(lib', lines) := Library.search_books lower class_attr query field lib in
          emit (Store <$> lines) (loop rest book_id lib')
        end
      end
    else if decide (choice = Py.lit "4") then
      let '(lib', lines) := Library.display_books lib in
      emit (Store <$> lines) (loop rest book_id lib')
    else if decide (choice = Py.lit "5") then
      emit [Prompt AskId]
      match rest with
      | [] => stop EOFError lib
      | s :: rest =>
        let '(caught, book_id) :=
          match int_of_str s with
          | Some k => ([], Some k)
          | None => ([IdError], book_id)
          end in
        emit (caught ++ [Prompt AskStatus])
        match rest with
        | [] => stop EOFError lib
        | status :: rest =>
          match book_id with
          | None => stop UnboundLocalError lib
          | Some k =>
            let '(lib', lines) := Library.update_status k status lib in
            emit (Store <$> lines) (loop rest (Some k) lib')
          end
        end
      end
    else if decide (choice = Py.lit "6") then
      emit [ExitMsg] (stop Exited lib)
    else
      emit [BadChoice] (loop rest book_id lib)
  end.

(** [main()] with the file [f] on disk and the lines [inputs] typed. *)
Definition main (f : option (list Py.dict)) (inputs : list Py.str) : t :=
  match Library.init f with
  | Py.Raise e => stop (LoadError e) (Library.mk [] f)
  | Py.Ok lib => loop inputs None lib
  end.

End Loop.

End Main.

(** ** Vocabulary of the statements *)

(** The file holds what [save_data] writes for the books in memory. *)
Definition synced (lib : Library.t) : Prop :=
  Library.file lib = Some (Book.to_dict <$> Library.books lib).

(** Every status in memory is one of the two labels. *)
Definition valid_statuses (lib : Library.t) : Prop :=
  Forall (λ b, Book.status b ∈ [Book.AVAILABLE; Book.ISSUED]) (Library.books lib).



(** The ids grow along the list and are at least 1. *)
Definition ids_ascending (lib : Library.t) : Prop :=
  StronglySorted Z.lt (Book.id <$> Library.books lib) ∧
  Forall (λ k, 1 ≤ k) (Book.id <$> Library.books lib).

(** A book without its status. *)
Definition without_status (b : Book.t) : Book.t := Book.set_status [] b.






(** The five keys of a saved record. *)
Definition saved_keys : gset Py.str :=
  {[Py.lit "id"; Py.lit "title"; Py.lit "author"; Py.lit "year"; Py.lit "status"]}.

(** An [int] that reads decimal digits only: enough to run the examples. *)
Definition int_of_digits (s : Py.str) : option Z :=
  if decide (s = []) then None
  else foldl (λ acc c, n ← acc;
                       if decide (48 ≤ c ∧ c < 58)%N then Some (10 * n + Z.of_N (c - 48))
                       else None) (Some 0) s.

(** The ids of a catalogue, in list order. *)
Definition ids (lib : Library.t) : list Z := Book.id <$> Library.books lib.

(** Loading resets the status: what [load_data] makes of a saved book. *)
Definition reloaded (b : Book.t) : Book.t :=
  Book.set_status Book.AVAILABLE b.




(** The five attributes [Book.__init__] sets. *)
Definition instance_attrs : list Py.str :=
  [Py.lit "id"; Py.lit "title"; Py.lit "author"; Py.lit "year"; Py.lit "status"].

(** [field] names no attribute of [book]: [getattr] falls back to its
    default. *)
Definition no_attr (class_attr : Book.t → Py.str → option Py.str)
    (book : Book.t) (field : Py.str) : Prop :=
  (field ∉ instance_attrs) ∧ class_attr book field = None.

(** Two strings that differ at most in the case of their ASCII letters. *)
Definition same_up_to_case (s s' : Py.str) : Prop :=
  Py.lower_ascii s = Py.lower_ascii s'.

(** ** Data of the examples *)

(** One book, checked out. *)
Definition dune : Book.t :=
  Book.mk 1 (Py.lit "Dune") (Py.lit "Frank Herbert") 1965 Book.ISSUED.


(** A catalogue over an empty JSON array, and the one with ids 1, 2, 3. *)
Definition empty_library : Library.t := Library.mk [] (Some []).

Definition three_books : list Book.t :=
  [Book.new 1 (Py.lit "A") (Py.lit "X") 2001;
   Book.new 2 (Py.lit "B") (Py.lit "Y") 2002;
   Book.new 3 (Py.lit "C") (Py.lit "Z") 2003].

(** A Python whose objects have no attribute besides the five fields, and
    [str.lower] restricted to ASCII letters: enough to run the examples,
    whose strings are ASCII. *)
Definition no_class_attr : Book.t → Py.str → option Py.str := λ _ _, None.

(** * Properties *)

(** ** Built-ins *)

Section builtins.

Lemma max_default_foldl_ge (xs : list Z) (x : Z) : x ≤ foldl Z.max x xs.
Proof.
  revert x. induction xs as [|y ys IH]; intros x; simpl; [lia|].
  specialize (IH (Z.max x y)). lia.
Qed.

Lemma max_default_foldl_elem (xs : list Z) (x y : Z) :
  y ∈ xs → y ≤ foldl Z.max x xs.
Proof.
  revert x. induction xs as [|z zs IH]; intros x Hy; simpl.
  - by apply elem_of_nil in Hy.
  - apply elem_of_cons in Hy as [->|Hy]; [|by apply IH].
    pose proof (max_default_foldl_ge zs (Z.max x z)). lia.
Qed.

(** [max] bounds every element. *)
Lemma max_default_ge (xs : list Z) (d y : Z) :
  y ∈ xs → y ≤ Py.max_default xs d.
Proof.
  destruct xs as [|x xs]; simpl; intros Hy.
  - by apply elem_of_nil in Hy.
  - apply elem_of_cons in Hy as [->|Hy].
    + apply max_default_foldl_ge.
    + by apply max_default_foldl_elem.
Qed.



Lemma startswith_prefix (p s : Py.str) :
  Py.startswith p s = true ↔ ∃ post, s = p ++ post.
Proof.
  revert s. induction p as [|a p IH]; intros s; simpl.
  - split; [intros _; by exists s|done].
  - destruct s as [|b s]; simpl.
    + split; [done|intros [post H]; done].
    + rewrite andb_true_iff, bool_decide_eq_true, IH. split.
      * intros [-> [post ->]]. by exists post.
      * intros [post H]. injection H as -> ->. eauto.
Qed.

(** [needle in hay]: the needle is a contiguous run of the haystack. *)
Lemma contains_infix (needle hay : Py.str) :
  Py.contains needle hay = true ↔ ∃ pre post, hay = pre ++ needle ++ post.
Proof.
  induction hay as [|c hay IH].
  - simpl. rewrite orb_false_r, startswith_prefix. split.
    + intros [post H]. by exists [], post.
    + intros [pre [post H]]. destruct pre; [by exists post|done].
  - cbn [Py.contains]. rewrite orb_true_iff, startswith_prefix, IH. split.
    + intros [[post H]|[pre [post H]]].
      * by exists [], post.
      * exists (c :: pre), post. by rewrite H.
    + intros [pre [post H]]. destruct pre as [|c' pre]; simpl in H.
      * left. by exists post.
      * right. injection H as _ ->. by exists pre, post.
Qed.


Lemma contains_in_nil (needle : Py.str) :
  needle ≠ [] → Py.contains needle [] = false.
Proof. by destruct needle. Qed.

Lemma lower_on_ascii_nil (lower : Py.str → Py.str) :
  Py.lower_on_ascii lower → lower [] = [].
Proof. intros H. by apply (H []). Qed.

End builtins.

Example str_of_int_examples :
  Py.str_of_int 1965 = Py.lit "1965" ∧ Py.str_of_int 0 = Py.lit "0" ∧
  Py.str_of_int (-7) = Py.lit "-7".
Proof. by vm_compute. Qed.

Example contains_examples :
  Py.contains (Py.lit "mit") (Py.lit "smith") = true ∧
  Py.contains (Py.lit "mix") (Py.lit "smith") = false ∧
  Py.contains [] [] = true ∧
  Py.contains (Py.lit "a") [] = false.
Proof. by vm_compute. Qed.

Example max_default_examples :
  Py.max_default [3; 7; 2] 0 = 7 ∧ Py.max_default [] 0 = 0 ∧ Py.max_default [-5] 0 = -5.
Proof. by vm_compute. Qed.

(** ** Saving and loading *)

Section persistence.

Lemma to_dict_id b : Book.to_dict b !! Py.lit "id" = Some (Py.VInt (Book.id b)).
Proof. unfold Book.to_dict. by simplify_map_eq. Qed.

Lemma to_dict_title b :
  Book.to_dict b !! Py.lit "title" = Some (Py.VStr (Book.title b)).
Proof. unfold Book.to_dict. by simplify_map_eq. Qed.

Lemma to_dict_author b :
  Book.to_dict b !! Py.lit "author" = Some (Py.VStr (Book.author b)).
Proof. unfold Book.to_dict. by simplify_map_eq. Qed.

Lemma to_dict_year b :
  Book.to_dict b !! Py.lit "year" = Some (Py.VInt (Book.year b)).
Proof. unfold Book.to_dict. by simplify_map_eq. Qed.

Lemma to_dict_status b :
  Book.to_dict b !! Py.lit "status" = Some (Py.VStr (Book.status b)).
Proof. unfold Book.to_dict. by simplify_map_eq. Qed.

Lemma load_item_to_dict b : Library.load_item (Book.to_dict b) = Py.Ok (reloaded b).
Proof.
  unfold Library.load_item, Py.getitem_int, Py.getitem_str.
  by rewrite to_dict_id, to_dict_title, to_dict_author, to_dict_year.
Qed.

Lemma load_items_to_dict bs :
  Library.load_items (Book.to_dict <$> bs) = Py.Ok (reloaded <$> bs).
Proof.
  induction bs as [|b bs IH]; [done|].
  cbn [fmap list_fmap Library.load_items].
  by rewrite load_item_to_dict, IH.
Qed.

Lemma load_data_save_data lib :
  Library.load_data (Library.save_data lib)
  = Py.Ok (Library.with_books (reloaded <$> Library.books lib) (Library.save_data lib)).
Proof.
  unfold Library.load_data. cbn [Library.save_data Library.file].
  by rewrite load_items_to_dict.
Qed.

Lemma load_item_status item b :
  Library.load_item item = Py.Ok b → Book.status b = Book.AVAILABLE.
Proof.
  unfold Library.load_item, Py.getitem_int, Py.getitem_str.
  repeat (case_match; try done). cbn. by intros [= <-].
Qed.

Lemma load_items_status items bs :
  Library.load_items items = Py.Ok bs →
  Forall (λ b, Book.status b = Book.AVAILABLE) bs.
Proof.
  revert bs. induction items as [|item items IH]; intros bs; cbn.
  - intros [= <-]. constructor.
  - destruct (Library.load_item item) as [b|] eqn:Hb; cbn; [|done].
    destruct (Library.load_items items) as [bs'|]; cbn; [|done].
    intros [= <-]. constructor; [by eapply load_item_status|by apply IH].
Qed.



(** The round trip gives back the books saved exactly when every status
    is the default one. *)
Lemma load_data_save_data_books lib :
  Library.load_data (Library.save_data lib) = Py.Ok (Library.save_data lib) ↔
  Forall (λ b, Book.status b = Book.AVAILABLE) (Library.books lib).
Proof.
  rewrite load_data_save_data. destruct lib as [bs f]. cbn.
  unfold Library.with_books, Library.save_data. cbn. split.
  - intros [= H]. induction bs as [|b bs IH]; [constructor|].
    injection H as Hb Hbs. constructor; [|by apply IH].
    by rewrite <- Hb at 1.
  - intros H. do 2 f_equal. induction H as [|b bs Hb _ IH]; [done|].
    cbn. rewrite IH. f_equal. destruct b. cbn in *. by subst.
Qed.

End persistence.

(** C1 (code bug, evaluated).  Saving a catalogue that holds one book with
    status "выдана" and loading it again succeeds, but the book comes back
    with status "в наличии": the collection after the round trip differs
    from the one saved. *)
Theorem roundtrip_loses_status :
  ∃ lib', Library.load_data (Library.save_data (Library.mk [dune] None)) = Py.Ok lib' ∧
          Library.books lib' = [Book.new 1 (Py.lit "Dune") (Py.lit "Frank Herbert") 1965] ∧
          Library.books lib' ≠ [dune].
Proof.
  eexists. split; [apply load_data_save_data|]. split; [done|].
  cbn. by intros [= H].
Qed.


(** ** The store: ids *)

Section store_ids.

Variable lower : Py.str → Py.str.
Variable class_attr : Book.t → Py.str → option Py.str.


Lemma ids_add_book title author year lib :
  ids (Library.add_book title author year lib).1
  = ids lib ++ [Py.max_default (ids lib) 0 + 1].
Proof. unfold ids. cbn. by rewrite fmap_app. Qed.




Lemma ids_remove_book book_id lib i b :
  Library.next_with_id book_id (Library.books lib) = Some (i, b) →
  ids (Library.remove_book book_id lib).1 = delete i (ids lib).
Proof.
  intros H. unfold Library.remove_book. rewrite H. unfold ids. cbn.
  apply list_fmap_delete.
Qed.




Lemma NoDup_ids_add_book title author year lib :
  NoDup (ids lib) → NoDup (ids (Library.add_book title author year lib).1).
Proof.
  intros H. rewrite ids_add_book. apply NoDup_app. split; [done|]. split.
  - intros x Hx Hx'. apply list_elem_of_singleton in Hx'.
    pose proof (max_default_ge _ 0 _ Hx). lia.
  - apply NoDup_singleton.
Qed.

Lemma NoDup_ids_remove_book book_id lib :
  NoDup (ids lib) → NoDup (ids (Library.remove_book book_id lib).1).
Proof.
  intros H.
  destruct (Library.next_with_id book_id (Library.books lib)) as [[i b]|] eqn:Hfind.
  - rewrite (ids_remove_book _ _ _ _ Hfind).
    eapply sublist_NoDup; [done|apply sublist_delete].
  - unfold Library.remove_book. by rewrite Hfind.
Qed.

Lemma ids_update_status book_id status lib :
  ids (Library.update_status book_id status lib).1 = ids lib.
Proof.
  unfold Library.update_status.
  destruct (Library.next_with_id book_id (Library.books lib)) as [[i b]|] eqn:Hfind;
    [|done].
  case_bool_decide; [|done].
  apply list_find_Some in Hfind as (Hi & _ & _).
  unfold ids. cbn. rewrite list_fmap_insert. cbn.
  apply list_insert_id. by rewrite list_lookup_fmap, Hi.
Qed.

Lemma search_books_state query field lib :
  (Library.search_books lower class_attr query field lib).1 = lib.
Proof.
  unfold Library.search_books.
  by destruct (Library.search_results _ _ _ _ _).
Qed.

Lemma display_books_state lib : (Library.display_books lib).1 = lib.
Proof. unfold Library.display_books. by destruct (Library.books lib). Qed.

Lemma NoDup_ids_step o lib :
  NoDup (ids lib) → NoDup (ids (Shell.step lower class_attr o lib).1).
Proof.
  intros H. destruct o as [title author year|book_id|query field| |book_id status]; cbn [Shell.step].
  - by apply NoDup_ids_add_book.
  - by apply NoDup_ids_remove_book.
  - by rewrite search_books_state.
  - by rewrite display_books_state.
  - by rewrite ids_update_status.
Qed.

End store_ids.




(** With a gap below the largest id the removed id is not given again:
    from the ids 1 and 5, removing 5 makes the next id 2. *)
Example add_after_removing_max_with_gap :
  let lib := Library.mk [Book.new 1 (Py.lit "A") (Py.lit "X") 2001;
                         Book.new 5 (Py.lit "E") (Py.lit "V") 2005] None in
  (Library.add_book (Py.lit "F") (Py.lit "U") 2006 (Library.remove_book 5 lib).1).2
  = [Library.BookAdded (Py.lit "F") 2].
Proof. reflexivity. Qed.

(** The scenario of the specification: add "Dune" to the empty catalogue,
    check it out, remove it. *)
Example end_to_end_scenario :
  let added := (Library.add_book (Py.lit "Dune") (Py.lit "Frank Herbert") 1965 empty_library).1 in
  let updated := (Library.update_status 1 Book.ISSUED added).1 in
  let removed := (Library.remove_book 1 updated).1 in
  Library.books added = [Book.new 1 (Py.lit "Dune") (Py.lit "Frank Herbert") 1965] ∧
  Library.file added = Some [Book.to_dict (Book.new 1 (Py.lit "Dune") (Py.lit "Frank Herbert") 1965)] ∧
  Library.books updated = [dune] ∧
  Library.file updated = Some [Book.to_dict dune] ∧
  removed = Library.mk [] (Some []).
Proof. by vm_compute. Qed.

(** C4.  No two books of the catalogue share an id, and no sequence of
    [Add], [Remove], [Search], [ListAll] and [UpdateStatus] operations
    changes that: if the ids are pairwise distinct before (as in the empty
    catalogue), they are pairwise distinct after. *)
Theorem ids_stay_unique
    (lower : Py.str → Py.str) (class_attr : Book.t → Py.str → option Py.str)
    (ops : list Shell.op) (lib : Library.t) :
  NoDup (ids lib) → NoDup (ids (Shell.run lower class_attr ops lib).1).
Proof.
  revert lib. induction ops as [|o ops IH]; intros lib H; [done|].
  cbn [Shell.run].
  pose proof (NoDup_ids_step lower class_attr o lib H) as Hstep.
  destruct (Shell.step lower class_attr o lib) as [lib1 out1].
  specialize (IH lib1 Hstep).
  by destruct (Shell.run lower class_attr ops lib1) as [lib2 out2].
Qed.

(** A session on the empty catalogue that adds three books, removes the
    second, searches, lists, checks the third out and adds a fourth. *)
Lemma ids_stay_unique_witness :
  NoDup (ids (Shell.run Py.lower_ascii no_class_attr
                [Shell.Add (Py.lit "A") (Py.lit "X") 2001;
                 Shell.Add (Py.lit "B") (Py.lit "Y") 2002;
                 Shell.Add (Py.lit "C") (Py.lit "Z") 2003;
                 Shell.Remove 2;
                 Shell.Search (Py.lit "a") (Py.lit "title");
                 Shell.ListAll;
                 Shell.UpdateStatus 3 Book.ISSUED;
                 Shell.Add (Py.lit "D") (Py.lit "W") 2004]
                empty_library).1).
Proof. apply ids_stay_unique. apply NoDup_nil_2. Defined.

(** C5 (counterexample).  On the empty catalogue [update_status] with an
    invalid status prints "Книга не найдена.", not "Некорректный статус.":
    the id is looked up before the status is checked. *)
Lemma update_status_invalid_on_missing_id :
  Library.update_status 1 (Py.lit "borrowed-invalid-value") empty_library
  = (empty_library, [Library.BookNotFound]).
Proof. reflexivity. Qed.

(** C5 (amended).  [update_status] with a status that is neither of the two
    labels changes nothing, in memory or in the file, and saves nothing; it
    prints "Некорректный статус." when a book has the id and
    "Книга не найдена." when none has. *)
Theorem update_status_invalid_no_mutation
    (book_id : Z) (status : Py.str) (lib : Library.t) :
  status ∉ [Book.AVAILABLE; Book.ISSUED] →
  (Library.update_status book_id status lib).1 = lib ∧
  (book_id ∈ ids lib →
   (Library.update_status book_id status lib).2 = [Library.BadStatus]) ∧
  (book_id ∉ ids lib →
   (Library.update_status book_id status lib).2 = [Library.BookNotFound]).
Proof.
  intros Hbad. unfold Library.update_status, Library.next_with_id.
  destruct (list_find _ (Library.books lib)) as [[i b]|] eqn:Hfind.
  - rewrite bool_decide_eq_false_2 by done. cbn. split; [done|]. split; [done|].
    intros Hnot. exfalso. apply Hnot.
    apply list_find_Some in Hfind as (Hi & Hid & _).
    apply list_elem_of_fmap. exists b. split; [done|].
    by eapply list_elem_of_lookup_2.
  - cbn. split; [done|]. split; [|done].
    intros Hin. exfalso.
    apply list_elem_of_fmap in Hin as [b [Hb Hin]].
    apply list_find_None in Hfind. rewrite Forall_forall in Hfind.
    by apply (Hfind b Hin).
Qed.

Lemma update_status_invalid_no_mutation_witness :
  let lib := Library.mk [dune] (Some [Book.to_dict dune]) in
  (Library.update_status 1 (Py.lit "borrowed-invalid-value") lib).1 = lib ∧
  (1 ∈ ids lib →
   (Library.update_status 1 (Py.lit "borrowed-invalid-value") lib).2 = [Library.BadStatus]) ∧
  (1 ∉ ids lib →
   (Library.update_status 1 (Py.lit "borrowed-invalid-value") lib).2 = [Library.BookNotFound]).
Proof.
  apply update_status_invalid_no_mutation.
  intros H. apply elem_of_cons in H as [H|H]; [discriminate H|].
  apply list_elem_of_singleton in H. discriminate H.
Defined.

(** C6.  [remove_book] with an id no book has prints
    "Книга с таким ID не найдена." and returns the store as it was: the
    list is untouched and [save_data] is not called, so the file is the
    same too. *)
Theorem remove_book_missing_id (book_id : Z) (lib : Library.t) :
  book_id ∉ ids lib →
  Library.remove_book book_id lib = (lib, [Library.RemoveNotFound]).
Proof.
  intros Hnot. unfold Library.remove_book, Library.next_with_id.
  destruct (list_find _ (Library.books lib)) as [[i b]|] eqn:Hfind; [|done].
  exfalso. apply Hnot.
  apply list_find_Some in Hfind as (Hi & Hid & _).
  apply list_elem_of_fmap. exists b. split; [done|].
  by eapply list_elem_of_lookup_2.
Qed.

Lemma remove_book_missing_id_witness :
  Library.remove_book 999 (Library.mk three_books None)
  = (Library.mk three_books None, [Library.RemoveNotFound]).
Proof.
  apply remove_book_missing_id. unfold ids, three_books. cbn.
  intros H. repeat (apply elem_of_cons in H as [H|H]; [discriminate H|]).
  by apply elem_of_nil in H.
Defined.


(** What [save_data] does, by whether every book can be written. *)
Lemma fallible_save_data_cases s :
  (forallb Fallible.writable (Fallible.books s) = true ∧
   Fallible.save_data s
   = Fallible.ended (Fallible.mk (Fallible.books s)
                       (Fallible.Array (Book.to_dict <$> Fallible.books s))) [] None) ∨
  (forallb Fallible.writable (Fallible.books s) = false ∧
   Fallible.save_data s
   = Fallible.ended (Fallible.mk (Fallible.books s) Fallible.Partial) []
       (Some Fallible.ValueError)).
Proof.
  unfold Fallible.save_data.
  destruct (forallb Fallible.writable (Fallible.books s)); [by left|by right].
Qed.

Lemma writable_printable_id b : Fallible.writable b = true → Py.printable (Book.id b) = true.
Proof. unfold Fallible.writable. rewrite !andb_true_iff. tauto. Qed.

Lemma writable_encodable_title b :
  Fallible.writable b = true → Py.encodable (Book.title b) = true.
Proof. unfold Fallible.writable. rewrite !andb_true_iff. tauto. Qed.

(** [add_book] when every book, the new one included, can be written. *)
Lemma fallible_add_book_written title author year s :
  let book_id := Py.max_default (Book.id <$> Fallible.books s) 0 + 1 in
  let bs := Fallible.books s ++ [Book.new book_id title author year] in
  forallb Fallible.writable bs = true →
  Fallible.add_book title author year s
  = Fallible.ended (Fallible.mk bs (Fallible.Array (Book.to_dict <$> bs)))
      [Library.BookAdded title book_id] None.
Proof.
  cbn zeta. intros Hbs. unfold Fallible.add_book, Fallible.save_data.
  cbn [Fallible.books]. rewrite Hbs. cbn [Fallible.raised Fallible.state].
  rewrite forallb_app, andb_true_iff in Hbs. destruct Hbs as [_ Hnew].
  cbn [forallb] in Hnew. rewrite andb_true_r in Hnew.
  pose proof (writable_printable_id _ Hnew) as Hid.
  pose proof (writable_encodable_title _ Hnew) as Htitle.
  cbn [Book.id Book.title Book.new] in Hid, Htitle.
  unfold Fallible.say. cbn [forallb]. by rewrite Hid, Htitle.
Qed.



(** ** The store: search *)

Section search.

Variable lower : Py.str → Py.str.
Variable class_attr : Book.t → Py.str → option Py.str.

Abbreviation getattr_str := (Library.getattr_str class_attr).
Abbreviation matches := (Library.matches lower class_attr).
Abbreviation search_results := (Library.search_results lower class_attr).
Abbreviation search_books := (Library.search_books lower class_attr).


Lemma getattr_str_no_attr book field :
  no_attr class_attr book field → getattr_str book field = [].
Proof.
  intros [Hfield Hclass]. unfold Library.getattr_str, instance_attrs in *.
  repeat (case_decide; [set_solver|]). by rewrite Hclass.
Qed.

Lemma matches_infix query field book :
  matches query field book = true ↔
  ∃ pre post, lower (getattr_str book field) = pre ++ lower query ++ post.
Proof. apply contains_infix. Qed.


Lemma filter_none {A} (P : A → Prop) `{∀ x, Decision (P x)} (l : list A) :
  Forall (λ x, ¬ P x) l → filter P l = [].
Proof.
  induction 1 as [|x l Hx _ IH]; [done|].
  by rewrite filter_cons_False, IH.
Qed.


Lemma search_results_no_attr query field bs :
  lower [] = [] → Py.lower_keeps_nonempty lower → query ≠ [] →
  (∀ b, b ∈ bs → no_attr class_attr b field) →
  search_results query field bs = [].
Proof.
  intros Hnil Hkeep Hq Hno. apply filter_none, Forall_forall. intros b Hb.
  unfold Library.matches. rewrite (getattr_str_no_attr _ _ (Hno b Hb)), Hnil.
  rewrite contains_in_nil; [exact id|]. intros Hl. by apply Hq, Hkeep.
Qed.

(** On ASCII text the match ignores the case of letters and nothing else. *)
Lemma matches_ascii query field book :
  Py.lower_on_ascii lower →
  Forall Py.is_ascii query → Forall Py.is_ascii (getattr_str book field) →
  matches query field book = true ↔
  ∃ pre found post, getattr_str book field = pre ++ found ++ post ∧
                    same_up_to_case found query.
Proof.
  intros Hlower Hq Ht. rewrite matches_infix, (Hlower _ Hq), (Hlower _ Ht).
  unfold same_up_to_case, Py.lower_ascii. split.
  - intros (pre & post & H).
    apply fmap_app_inv in H as (pre' & rest & -> & Hrest & ->).
    symmetry in Hrest. apply fmap_app_inv in Hrest as (found & post' & Hfound & -> & ->).
    by exists pre', found, post'.
  - intros (pre & found & post & -> & Hfound).
    exists (Py.lower_ascii_char <$> pre), (Py.lower_ascii_char <$> post).
    by rewrite !fmap_app, Hfound.
Qed.

End search.

Section plain_text.

Variable lower : Py.str → Py.str.
Variable class_attr : Book.t → Py.str → option Py.str.



End plain_text.


(** The sample [lower_letters] is [str.lower] on the plain alphabets. *)
Lemma lower_letters_on_plain : Py.lower_on_plain Py.lower_letters.
Proof.
  intros s Hs. unfold Py.lower_letters. generalize false.
  induction Hs as [|c s Hc _ IH]; intros after; [done|].
  cbn [Py.lower_letters_after]. unfold Py.lower_plain in *. rewrite fmap_cons, IH.
  f_equal. unfold Py.is_plain in Hc.
  assert ((c =? 0x3A3)%N = false) as -> by (apply N.eqb_neq; lia).
  unfold Py.lower_letter.
  destruct (N.leb_spec 0x391 c); [|done].
  destruct (N.leb_spec c 0x3AB); [lia|done].
Qed.




(** C9 (counterexample).  With the empty query, a search on "genre", which
    names no attribute of a book, returns the whole catalogue. *)
Lemma search_unknown_field_empty_query :
  no_attr no_class_attr dune (Py.lit "genre") ∧
  Library.search_results Py.lower_ascii no_class_attr [] (Py.lit "genre") [dune] = [dune].
Proof.
  split; [|reflexivity]. split; [|done].
  unfold instance_attrs. intros H.
  repeat (apply elem_of_cons in H as [H|H]; [discriminate H|]).
  by apply elem_of_nil in H.
Qed.

(** C9 (amended).  For a query that is not empty and a field that names no
    attribute of any book of the catalogue, [search_books] finds nothing:
    the result is the empty list, it prints "Книги не найдены." and raises
    no error. *)
Theorem search_unknown_field_finds_nothing
    (lower : Py.str → Py.str) (class_attr : Book.t → Py.str → option Py.str)
    (query field : Py.str) (lib : Library.t) :
  lower [] = [] → Py.lower_keeps_nonempty lower →
  query ≠ [] →
  (∀ b, b ∈ Library.books lib → no_attr class_attr b field) →
  Library.search_results lower class_attr query field (Library.books lib) = [] ∧
  Library.search_books lower class_attr query field lib = (lib, [Library.BooksNotFound]).
Proof.
  intros Hnil Hkeep Hq Hno.
  pose proof (search_results_no_attr lower class_attr query field _ Hnil Hkeep Hq Hno) as H.
  split; [done|]. unfold Library.search_books. by rewrite H.
Qed.

Lemma search_unknown_field_finds_nothing_witness :
  let lib := Library.mk three_books None in
  Library.search_results Py.lower_ascii no_class_attr (Py.lit "a") (Py.lit "genre")
    (Library.books lib) = [] ∧
  Library.search_books Py.lower_ascii no_class_attr (Py.lit "a") (Py.lit "genre") lib
  = (lib, [Library.BooksNotFound]).
Proof.
  apply search_unknown_field_finds_nothing.
  - reflexivity.
  - intros s H. by destruct s.
  - discriminate.
  - intros b _. split; [|done]. unfold instance_attrs. intros H.
    repeat (apply elem_of_cons in H as [H|H]; [discriminate H|]).
    by apply elem_of_nil in H.
Defined.



(** * Further properties of the store *)

Section store_effects.

Variable lower : Py.str → Py.str.
Variable class_attr : Book.t → Py.str → option Py.str.

Lemma save_data_synced lib : synced (Library.save_data lib).
Proof. done. Qed.

(** A property every step keeps is kept by a session. *)
Lemma run_invariant (P : Library.t → Prop) :
  (∀ o lib, P lib → P (Shell.step lower class_attr o lib).1) →
  ∀ ops lib, P lib → P (Shell.run lower class_attr ops lib).1.
Proof.
  intros Hstep ops. induction ops as [|o ops IH]; intros lib H; [done|].
  cbn [Shell.run]. specialize (Hstep o lib H).
  destruct (Shell.step lower class_attr o lib) as [lib1 out1].
  specialize (IH lib1 Hstep).
  by destruct (Shell.run lower class_attr ops lib1).
Qed.

Lemma step_valid_statuses o lib :
  valid_statuses lib → valid_statuses (Shell.step lower class_attr o lib).1.
Proof.
  unfold valid_statuses. intros H.
  destruct o as [title author year|book_id|query field| |book_id status]; cbn [Shell.step].
  - cbn. apply Forall_app. split; [done|]. constructor; [|constructor]. cbn. set_solver.
  - unfold Library.remove_book.
    destruct (Library.next_with_id _ _) as [[i b]|]; [|done]. cbn.
    by apply Forall_delete.
  - by rewrite search_books_state.
  - by rewrite display_books_state.
  - unfold Library.update_status.
    destruct (Library.next_with_id _ _) as [[i b]|]; [|done].
    case_bool_decide; [|done]. cbn. by apply Forall_insert.
Qed.





(** Writing a status does not move the first book of an id. *)
Lemma next_with_id_set_status book_id status bs i b :
  Library.next_with_id book_id bs = Some (i, b) →
  Library.next_with_id book_id (<[i := Book.set_status status b]> bs)
  = Some (i, Book.set_status status b).
Proof.
  unfold Library.next_with_id. intros Hfind.
  apply list_find_Some in Hfind as (Hi & Hid & Hbefore).
  apply list_find_Some. split; [|split; [done|]].
  - apply list_lookup_insert_eq. by eapply lookup_lt_Some.
  - intros j y Hj Hlt. rewrite list_lookup_insert_ne in Hj by lia.
    by eapply Hbefore.
Qed.

End store_effects.

Lemma forallb_writable_lookup (bs : list Book.t) (i : nat) (b : Book.t) :
  forallb Fallible.writable bs = true → bs !! i = Some b →
  Fallible.writable b = true.
Proof.
  intros Hall Hi. rewrite forallb_forall in Hall. apply Hall.
  apply list_elem_of_In. by eapply list_elem_of_lookup_2.
Qed.

Lemma writable_encodable_status b :
  Fallible.writable b = true → Py.encodable (Book.status b) = true.
Proof. unfold Fallible.writable. rewrite !andb_true_iff. tauto. Qed.


(** A title that holds the lone surrogate U+D800, added to the empty
    catalogue: the book is in memory, the file is cut short, nothing is
    printed by [add_book], and the menu prints the message about the
    year. *)
Example add_book_unwritable_title :
  let s := Fallible.of_library empty_library in
  let left_behind :=
    Fallible.mk [Book.new 1 [0xD800%N] (Py.lit "A") 2000] Fallible.Partial in
  Fallible.add_book [0xD800%N] (Py.lit "A") 2000 s
  = Fallible.ended left_behind [] (Some Fallible.ValueError) ∧
  Fallible.choice_add [0xD800%N] (Py.lit "A") (Some 2000) s
  = Fallible.ended left_behind [Library.YearError] None.
Proof. by vm_compute. Qed.

(** X17.  A save that fails in branch "1" of the menu is reported as a
    bad year.  When the year typed is an integer that is at least 0 but
    some book, the new one included, cannot be written, [add_book] raises
    after it has appended the book and emptied the file; the menu's
    [except ValueError] catches it, prints
    "Год должен быть числом и больше нуля" and goes on, with the book in
    memory and the file cut short. *)
Theorem choice_add_reports_failed_save_as_year
    (title author : Py.str) (year : Z) (s : Fallible.t) :
  let book_id := Py.max_default (Book.id <$> Fallible.books s) 0 + 1 in
  let bs := Fallible.books s ++ [Book.new book_id title author year] in
  0 ≤ year →
  forallb Fallible.writable bs = false →
  Fallible.add_book title author year s
  = Fallible.ended (Fallible.mk bs Fallible.Partial) [] (Some Fallible.ValueError) ∧
  Fallible.choice_add title author (Some year) s
  = Fallible.ended (Fallible.mk bs Fallible.Partial) [Library.YearError] None.
Proof.
  cbn zeta. intros Hyear Hbs.
  assert (Fallible.add_book title author year s
          = Fallible.ended
              (Fallible.mk
                 (Fallible.books s ++
                  [Book.new (Py.max_default (Book.id <$> Fallible.books s) 0 + 1)
                     title author year])
                 Fallible.Partial)
              [] (Some Fallible.ValueError)) as Hadd.
  { unfold Fallible.add_book, Fallible.save_data. cbn [Fallible.books].
    by rewrite Hbs. }
  split; [done|]. unfold Fallible.choice_add.
  rewrite (proj2 (Z.ltb_ge _ _) Hyear). by rewrite Hadd.
Qed.

Lemma choice_add_reports_failed_save_as_year_witness :
  Fallible.choice_add [0xD800%N] (Py.lit "A") (Some 2000)
    (Fallible.of_library empty_library)
  = Fallible.ended
      (Fallible.mk [Book.new 1 [0xD800%N] (Py.lit "A") 2000] Fallible.Partial)
      [Library.YearError] None.
Proof.
  refine (proj2 (choice_add_reports_failed_save_as_year [0xD800%N] (Py.lit "A") 2000
                   (Fallible.of_library empty_library) _ _)).
  - lia.
  - by vm_compute.
Defined.

(** X18.  On books that can be written the store of [Fallible] is the
    store of [Library]: when every book left in memory can be written
    (and, for [remove_book], the id can be printed), each of [add_book],
    [remove_book] and [update_status] returns, and leaves the store and
    prints the lines that the operation of [Library] gives. *)
Theorem library_is_fallible_on_writable (lib : Library.t) :
  (∀ title author year,
     let r := Library.add_book title author year lib in
     forallb Fallible.writable (Library.books r.1) = true →
     Fallible.add_book title author year (Fallible.of_library lib)
     = Fallible.ended (Fallible.of_library r.1) r.2 None) ∧
  (∀ book_id,
     let r := Library.remove_book book_id lib in
     forallb Fallible.writable (Library.books r.1) = true →
     Py.printable book_id = true →
     Fallible.remove_book book_id (Fallible.of_library lib)
     = Fallible.ended (Fallible.of_library r.1) r.2 None) ∧
  (∀ book_id status,
     let r := Library.update_status book_id status lib in
     forallb Fallible.writable (Library.books r.1) = true →
     Fallible.update_status book_id status (Fallible.of_library lib)
     = Fallible.ended (Fallible.of_library r.1) r.2 None).
Proof.
  split; [|split].
  - intros title author year. cbn zeta. intros Hbs.
    by rewrite (fallible_add_book_written title author year (Fallible.of_library lib) Hbs).
  - intros book_id. cbn zeta.
    unfold Library.remove_book, Fallible.remove_book. cbn [Fallible.of_library Fallible.books].
    destruct (Library.next_with_id book_id (Library.books lib)) as [[i b]|]; [|done].
    cbn [fst snd Library.books Library.save_data Library.with_books].
    intros Hbs Hid. unfold Fallible.save_data. cbn [Fallible.books]. rewrite Hbs.
    cbn [Fallible.raised Fallible.state]. unfold Fallible.say. cbn [forallb].
    by rewrite Hid.
  - intros book_id status. cbn zeta.
    unfold Library.update_status, Fallible.update_status.
    cbn [Fallible.of_library Fallible.books].
    destruct (Library.next_with_id book_id (Library.books lib)) as [[i b]|] eqn:Hfind;
      [|done].
    case_bool_decide; [|done].
    cbn [fst snd Library.books Library.save_data Library.with_books].
    intros Hbs. unfold Fallible.save_data. cbn [Fallible.books]. rewrite Hbs.
    cbn [Fallible.raised Fallible.state].
    apply list_find_Some in Hfind as (Hi & Hid & _).
    assert (Fallible.writable (Book.set_status status b) = true) as Hb.
    { eapply forallb_writable_lookup; [done|].
      apply list_lookup_insert_eq. by eapply lookup_lt_Some. }
    pose proof (writable_printable_id _ Hb) as Hpid.
    pose proof (writable_encodable_status _ Hb) as Hst.
    cbn [Book.id Book.status Book.set_status] in Hpid, Hst. rewrite Hid in Hpid.
    unfold Fallible.say. cbn [forallb]. by rewrite Hpid, Hst.
Qed.






(** X5.  Of two status updates of the same id the last one wins: when the
    second status is one of the two labels, the store after both is the
    store after the second alone, whatever the first status was and
    whether or not a book has the id. *)
Theorem update_status_last_wins
    (book_id : Z) (status1 status2 : Py.str) (lib : Library.t) :
  status2 ∈ [Book.AVAILABLE; Book.ISSUED] →
  (Library.update_status book_id status2
     (Library.update_status book_id status1 lib).1).1
  = (Library.update_status book_id status2 lib).1.
Proof.
  intros Hvalid. unfold Library.update_status at 2.
  destruct (Library.next_with_id book_id (Library.books lib)) as [[i b]|] eqn:Hfind;
    [|done].
  case_bool_decide as H1; [|done]. cbn [fst].
  unfold Library.update_status, Library.save_data, Library.with_books.
  cbn [Library.books Library.file].
  rewrite (next_with_id_set_status _ status1 _ _ _ Hfind), Hfind.
  rewrite bool_decide_eq_true_2 by done. cbn.
  by rewrite list_insert_insert_eq.
Qed.

Lemma update_status_last_wins_witness :
  (Library.update_status 2 Book.AVAILABLE
     (Library.update_status 2 Book.ISSUED (Library.mk three_books None)).1).1
  = (Library.update_status 2 Book.AVAILABLE (Library.mk three_books None)).1.
Proof. apply update_status_last_wins. set_solver. Defined.

(** X6.  Every status in memory is one of the two labels: it is so right
    after [Library()] has loaded a file, whatever the file says, and no
    session of operations changes that. *)
Theorem statuses_stay_valid
    (lower : Py.str → Py.str) (class_attr : Book.t → Py.str → option Py.str) :
  (∀ f lib, Library.init f = Py.Ok lib → valid_statuses lib) ∧
  (∀ ops lib, valid_statuses lib →
              valid_statuses (Shell.run lower class_attr ops lib).1).
Proof.
  split.
  - intros f lib. unfold Library.init, Library.load_data. cbn.
    destruct f as [items|]; [|done]. cbn.
    destruct (Library.load_items items) as [bs|] eqn:Hbs; cbn; [|done].
    intros [= <-]. unfold valid_statuses. cbn.
    eapply Forall_impl; [by eapply load_items_status|].
    cbn. intros b ->. set_solver.
  - apply run_invariant. intros o lib. apply step_valid_statuses.
Qed.

(** * Further properties of loading and saving *)

Section loading.



Lemma to_dict_inj b b' : Book.to_dict b = Book.to_dict b' → b = b'.
Proof.
  intros H.
  pose proof (to_dict_id b) as Hid. pose proof (to_dict_title b) as Htitle.
  pose proof (to_dict_author b) as Hauthor. pose proof (to_dict_year b) as Hyear.
  pose proof (to_dict_status b) as Hstatus.
  rewrite H in Hid, Htitle, Hauthor, Hyear, Hstatus.
  rewrite to_dict_id in Hid. rewrite to_dict_title in Htitle.
  rewrite to_dict_author in Hauthor. rewrite to_dict_year in Hyear.
  rewrite to_dict_status in Hstatus.
  destruct b, b'. cbn in *. congruence.
Qed.

End loading.

Section typed_files.




End typed_files.



(** X8.  A saved record has exactly the keys "id", "title", "author",
    "year" and "status", and it determines the book: two books with the
    same [to_dict] are the same, status included. *)
Theorem to_dict_faithful :
  (∀ b, dom (Book.to_dict b) = saved_keys) ∧
  (∀ b b', Book.to_dict b = Book.to_dict b' → b = b').
Proof.
  split; [|apply to_dict_inj].
  intros b. unfold Book.to_dict, saved_keys.
  rewrite !dom_insert_L, dom_empty_L. set_solver.
Qed.

(** * Properties of the menu loop *)

Section menu_loop.

Variable lower : Py.str → Py.str.
Variable class_attr : Book.t → Py.str → option Py.str.
Variable int_of_str : Py.str → option Z.

Abbreviation loop := (Main.loop lower class_attr int_of_str).
Abbreviation step := (Shell.step lower class_attr).

Lemma store_emit o r : Main.store (Main.emit o r) = Main.store r.
Proof. done. Qed.

Lemma ending_emit o r : Main.ending_of (Main.emit o r) = Main.ending_of r.
Proof. done. Qed.

End menu_loop.

(** X11.  What a line that is no number does where [main] expects one.
    For the year of branch "1" the error is caught: a message is printed
    and the loop goes on with the store as it was.  For the id of branch
    "2" nothing catches it: the program ends with [ValueError].  For the
    id of branch "5" a message is printed and the status is asked for all
    the same; [update_status] is then called with the id of the last turn
    that read one, so the run ends as if that id had been typed again, and
    when no turn has read an id yet the program ends with
    [UnboundLocalError].  In the two cases that end the program the store
    is as it was. *)
Theorem non_numeric_input
    (lower : Py.str → Py.str) (class_attr : Book.t → Py.str → option Py.str)
    (int_of_str : Py.str → option Z)
    (bad : Py.str) (rest : list Py.str) (book_id : option Z) (lib : Library.t) :
  int_of_str bad = None →
  let loop := Main.loop lower class_attr int_of_str in
  (∀ title author,
     loop (Py.lit "1" :: title :: author :: bad :: rest) book_id lib
     = Main.emit (Main.menu ++ [Main.Prompt Main.AskChoice; Main.Prompt Main.AskTitle;
                                Main.Prompt Main.AskAuthor; Main.Prompt Main.AskYear;
                                Main.Store Library.YearError])
                 (loop rest book_id lib)) ∧
  loop (Py.lit "2" :: bad :: rest) book_id lib
  = Main.mk (Main.menu ++ [Main.Prompt Main.AskChoice; Main.Prompt Main.AskId])
            lib Main.ValueError ∧
  (∀ status,
     loop (Py.lit "5" :: bad :: status :: rest) None lib
     = Main.mk (Main.menu ++ [Main.Prompt Main.AskChoice; Main.Prompt Main.AskId;
                              Main.IdError; Main.Prompt Main.AskStatus])
               lib Main.UnboundLocalError) ∧
  (∀ status k typed,
     int_of_str typed = Some k →
     let stale := loop (Py.lit "5" :: bad :: status :: rest) (Some k) lib in
     let again := loop (Py.lit "5" :: typed :: status :: rest) book_id lib in
     Main.store stale = Main.store again ∧
     Main.ending_of stale = Main.ending_of again ∧
     Main.IdError ∈ Main.printed stale).
Proof.
  intros Hbad loop. subst loop. split; [|split; [|split]].
  - intros title author. cbn [Main.loop]. rewrite decide_True by done.
    rewrite Hbad. cbn. done.
  - cbn [Main.loop]. rewrite decide_False by done. rewrite decide_True by done.
    by rewrite Hbad.
  - intros status. cbn [Main.loop].
    do 4 rewrite decide_False by done. rewrite decide_True by done.
    by rewrite Hbad.
  - intros status k typed Htyped. cbn zeta. cbn [Main.loop].
    do 4 rewrite decide_False by done. rewrite decide_True by done.
    rewrite Hbad, Htyped. rewrite !store_emit, !ending_emit.
    destruct (Library.update_status k status lib) as [lib' lines].
    split; [done|]. split; [done|].
    cbn. set_solver.
Qed.

Lemma non_numeric_input_witness :
  Main.loop Py.lower_ascii no_class_attr int_of_digits
    [Py.lit "2"; Py.lit "abc"; Py.lit "6"] None (Library.mk three_books None)
  = Main.mk (Main.menu ++ [Main.Prompt Main.AskChoice; Main.Prompt Main.AskId])
            (Library.mk three_books None) Main.ValueError.
Proof.
  exact (proj1 (proj2 (non_numeric_input Py.lower_ascii no_class_attr int_of_digits
                         (Py.lit "abc") [Py.lit "6"] None
                         (Library.mk three_books None) eq_refl))).
Defined.

(** * Further invariants and compositions *)

Section more_store.

Variable lower : Py.str → Py.str.
Variable class_attr : Book.t → Py.str → option Py.str.

Lemma StronglySorted_delete {A} (R : relation A) (l : list A) (i : nat) :
  StronglySorted R l → StronglySorted R (delete i l).
Proof.
  intros H. revert i. induction H as [|x l Hl IH Hx]; intros i;
    [destruct i; constructor|].
  destruct i as [|i]; [done|]. cbn. constructor; [apply IH|by apply Forall_delete].
Qed.

Lemma step_ids_ascending o lib :
  ids_ascending lib → ids_ascending (Shell.step lower class_attr o lib).1.
Proof.
  unfold ids_ascending. intros [Hsorted Hpos].
  destruct o as [title author year|book_id|query field| |book_id status]; cbn [Shell.step].
  - fold (ids (Library.add_book title author year lib).1).
    rewrite ids_add_book. fold (ids lib) in Hsorted, Hpos. split.
    + apply StronglySorted_app_2; [|done|repeat constructor].
      intros x y Hx ->%list_elem_of_singleton.
      pose proof (max_default_ge _ 0 _ Hx). lia.
    + apply Forall_app. split; [done|]. constructor; [|constructor].
      destruct (ids lib) as [|k ks] eqn:Hids; [done|].
      assert (k ≤ Py.max_default (k :: ks) 0) by (apply max_default_ge; left).
      apply Forall_cons in Hpos as [Hk _]. lia.
  - destruct (Library.next_with_id book_id (Library.books lib)) as [[i b]|] eqn:Hfind.
    + fold (ids (Library.remove_book book_id lib).1).
      rewrite (ids_remove_book _ _ _ _ Hfind). unfold ids.
      split; [by apply StronglySorted_delete|by apply Forall_delete].
    + unfold Library.remove_book. by rewrite Hfind.
  - by rewrite search_books_state.
  - by rewrite display_books_state.
  - fold (ids (Library.update_status book_id status lib).1).
    by rewrite ids_update_status.
Qed.

Lemma update_status_without_status book_id status lib :
  without_status <$> Library.books (Library.update_status book_id status lib).1
  = without_status <$> Library.books lib.
Proof.
  unfold Library.update_status.
  destruct (Library.next_with_id book_id (Library.books lib)) as [[i b]|] eqn:Hfind;
    [|done].
  case_bool_decide; [|done].
  apply list_find_Some in Hfind as (Hi & _ & _).
  cbn. rewrite list_fmap_insert. apply list_insert_id.
  by rewrite list_lookup_fmap, Hi.
Qed.


End more_store.

(** X12.  The ids of the catalogue stay in ascending order and at least 1:
    [add_book] appends an id larger than all others, [remove_book] takes
    one out and nothing reorders the list, so a catalogue whose ids grow
    along the list (the empty one, for instance) is listed in id order
    after any session. *)
Theorem ids_stay_ascending
    (lower : Py.str → Py.str) (class_attr : Book.t → Py.str → option Py.str)
    (ops : list Shell.op) (lib : Library.t) :
  ids_ascending lib → ids_ascending (Shell.run lower class_attr ops lib).1.
Proof. apply run_invariant. apply step_ids_ascending. Qed.

Lemma ids_stay_ascending_witness :
  ids_ascending
    (Shell.run Py.lower_ascii no_class_attr
       [Shell.Add (Py.lit "A") (Py.lit "X") 2001;
        Shell.Add (Py.lit "B") (Py.lit "Y") 2002;
        Shell.Remove 1;
        Shell.UpdateStatus 2 Book.ISSUED;
        Shell.Add (Py.lit "C") (Py.lit "Z") 2003]
       empty_library).1.
Proof. apply ids_stay_ascending. split; constructor. Defined.

(** X13.  [update_status] changes nothing but a status: whatever the id
    and the status given, found or not, valid or not, the books are as
    many as before and have, position by position, the same id, title,
    author and year. *)
Theorem update_status_changes_status_only
    (book_id : Z) (status : Py.str) (lib : Library.t) :
  let after := Library.books (Library.update_status book_id status lib).1 in
  length after = length (Library.books lib) ∧
  without_status <$> after = without_status <$> Library.books lib.
Proof.
  cbn zeta. pose proof (update_status_without_status book_id status lib) as H.
  split; [|done].
  apply (f_equal length) in H. by rewrite !length_fmap in H.
Qed.




(** A whole run: on an empty catalogue, add "Dune", check it out, remove
    it, type a choice that is none, and leave. *)
Example main_end_to_end :
  let r := Main.main Py.lower_ascii no_class_attr int_of_digits (Some [])
             [Py.lit "1"; Py.lit "Dune"; Py.lit "Frank Herbert"; Py.lit "1965";
              Py.lit "5"; Py.lit "1"; Book.ISSUED;
              Py.lit "2"; Py.lit "1";
              Py.lit "7";
              Py.lit "6"; Py.lit "never read"] in
  Main.ending_of r = Main.Exited ∧
  Main.store r = Library.mk [] (Some []) ∧
  omap (λ o, match o with Main.Store l => Some l | _ => None end) (Main.printed r)
  = [Library.BookAdded (Py.lit "Dune") 1;
     Library.StatusUpdated 1 Book.ISSUED;
     Library.BookRemoved 1] ∧
  omap (λ o, match o with Main.BadChoice => Some 0 | Main.ExitMsg => Some 1 | _ => None end)
       (Main.printed r)
  = [0; 1].
Proof. by vm_compute. Qed.

(** X16.  [display_books] shows what is on disk: when the file mirrors the
    memory, the lines printed are the records of the file, one per record
    and in file order, and "Библиотека пуста." when the file holds no
    record; the store is not touched. *)
Theorem display_books_shows_file (lib : Library.t) :
  synced lib →
  ∃ items, Library.file lib = Some items ∧
           Library.display_books lib
           = (lib, match items with
                   | [] => [Library.LibraryEmpty]
                   | _ => Library.Printed <$> items
                   end).
Proof.
  unfold synced. intros Hfile. eexists. split; [done|].
  unfold Library.display_books.
  destruct (Library.books lib) as [|b bs]; [done|].
  cbn. by rewrite <- list_fmap_compose.
Qed.

Lemma display_books_shows_file_witness :
  ∃ items, Library.file (Library.save_data (Library.mk three_books None)) = Some items ∧
           Library.display_books (Library.save_data (Library.mk three_books None))
           = (Library.save_data (Library.mk three_books None),
              match items with
              | [] => [Library.LibraryEmpty]
              | _ => Library.Printed <$> items
              end).
Proof. apply display_books_shows_file. apply save_data_synced. Defined.
